(** * ProfiledPIDCommand: a shallow embedding of
    [frc2/command/ProfiledPIDCommand.h] and its lifecycle contract.

    The header is a C++ class template.  Its lifecycle methods call four
    collaborators (the controller, the measurement source, the goal source
    and the output consumer); the embedding records every such call in a
    log, so that "how often" and "in which order" become statements about
    lists of events.

    Three features of C++ are modelled explicitly because the class depends
    on them:

    - the order in which the arguments of one call are evaluated is not
      fixed by the language (the initialisations of the parameters are
      indeterminately sequenced), so [Execute] takes the order chosen for
      its two calls as a parameter;
    - a lambda that captures a variable by reference holds the address of
      that variable, and a by-value constructor parameter dies when the
      constructor returns, so automatic objects live in a store of frames
      and a call through a dead address has no defined behaviour;
    - which constructor a delegating call selects is decided by the types
      of its arguments. *)

From stdpp Require Import base option list gmap sets.

(** ** Quantities

    [units::unit_t<...>] wraps a [double] with a compile-time unit tag.  The
    command never computes with these values; the only literal it writes is
    zero ([0], [0_mps], [Distance_t(0)], [Velocity_t(0)]). *)

Class Double (double : Type) := double_zero : double.

Section ProfiledPIDCommand.

Context {double : Type} `{!Double double}.

Definition Distance_t : Type := double.
Definition Velocity_t : Type := double.

(** [frc::TrapezoidProfile<Distance>::State] *)
Record State : Type := mkState { position : Distance_t; velocity : Velocity_t }.

(** ** The controller interface

    [frc::ProfiledPIDController<Distance>] is declared outside this header;
    the command uses three of its members.  [Calculate] advances the
    controller, [GetSetpoint] only reads it. *)

Class ProfiledPIDController (Controller : Type) := {
  Calculate : Distance_t → State → Controller → double * Controller;
  GetSetpoint : Controller → State;
  Reset : Controller → Controller }.

(** ** Callables and the store of automatic objects *)

(** Whatever the user's callbacks read and write: sensors, actuators,
    variables captured by the user's own closures. *)
Context {World : Type}.

(** [std::function<units::unit_t<Distance>>], invoked with no argument
    ([m_measurement()], [goalSource()]). *)
Definition DistanceFunction : Type := World → Distance_t * World.

(** [std::function<void(double, State)>] *)
Definition OutputFunction : Type := double → State → World → World.

(** Address of an object with automatic storage duration. *)
Definition addr : Type := nat.

(** [std::function<State()>]: either a callable that owns everything it
    needs (a user's callable, or a lambda with by-value captures), or the
    lambda of the position-valued constructor,
    [[&goalSource]() { return State{goalSource(), 0_mps}; }],
    which holds the address of the constructor's parameter [goalSource]. *)
Inductive StateFunction : Type :=
| Owning (f : World → State * World)
| LiftByRef (goalSource : addr).

(** ** Events *)

Inductive Event : Type :=
| EvMeasurement (ret : Distance_t)
| EvGoal (ret : State)
| EvReset
| EvCalculate (measurement : Distance_t) (goal : State) (ret : double)
| EvGetSetpoint (ret : State)
| EvUseOutput (effort : double) (setpoint : State).

Definition is_measurement (e : Event) : bool :=
  match e with EvMeasurement _ => true | _ => false end.
Definition is_goal (e : Event) : bool :=
  match e with EvGoal _ => true | _ => false end.
Definition is_reset (e : Event) : bool :=
  match e with EvReset => true | _ => false end.
Definition is_calculate (e : Event) : bool :=
  match e with EvCalculate _ _ _ => true | _ => false end.
Definition is_getSetpoint (e : Event) : bool :=
  match e with EvGetSetpoint _ => true | _ => false end.
Definition is_useOutput (e : Event) : bool :=
  match e with EvUseOutput _ _ => true | _ => false end.

(** The calls of one kind, in the order they happened. *)
Definition calls (kind : Event → bool) (evs : list Event) : list Event :=
  List.filter kind evs.

(** ** Machine state *)

Record Env : Type := mkEnv {
  world : World;
  log : list Event;
  frames : gmap addr DistanceFunction }.

Definition emit (e : Event) (σ : Env) : Env :=
  mkEnv (world σ) (log σ ++ [e]) (frames σ).

Definition set_world (w : World) (σ : Env) : Env :=
  mkEnv w (log σ) (frames σ).

(** A by-value parameter is created at a fresh address on entry ... *)
Definition alloc (f : DistanceFunction) (σ : Env) : addr * Env :=
  let a := fresh (dom (frames σ)) in
  (a, mkEnv (world σ) (log σ) (<[a := f]> (frames σ))).

(** ... and destroyed when the function returns. *)
Definition dealloc (a : addr) (σ : Env) : Env :=
  mkEnv (world σ) (log σ) (delete a (frames σ)).

(** The object a reference designates, while it exists. *)
Definition deref (a : addr) (σ : Env) : option DistanceFunction :=
  frames σ !! a.

(** ** The command object *)

Context {Subsystem : Type} `{Countable Subsystem}.
Context {Controller : Type} `{!ProfiledPIDController Controller}.

Record ProfiledPIDCommand : Type := mkCommand {
  m_requirements : gset Subsystem;
  m_controller : Controller;
  m_measurement : DistanceFunction;
  m_goal : StateFunction;
  m_useOutput : OutputFunction }.

Definition set_controller (k : Controller) (c : ProfiledPIDCommand)
  : ProfiledPIDCommand :=
  mkCommand (m_requirements c) k (m_measurement c) (m_goal c) (m_useOutput c).

(** ** A state-and-failure monad for member functions

    A member function runs on the object ([*this]) and the environment.
    [None] stands for undefined behaviour. *)

Definition M (A : Type) : Type :=
  ProfiledPIDCommand * Env → option (A * (ProfiledPIDCommand * Env)).

#[global] Instance M_ret : MRet M := λ A a st, Some (a, st).
#[global] Instance M_bind : MBind M := λ A B k m st,
  match m st with
  | Some (a, st') => k a st'
  | None => None
  end.

(** [m_controller.Reset()] *)
Definition controller_Reset : M () := λ '(c, σ),
  Some ((), (set_controller (Reset (m_controller c)) c, emit EvReset σ)).

(** [m_controller.Calculate(m, g)] *)
Definition controller_Calculate (m : Distance_t) (g : State) : M double :=
  λ '(c, σ),
  let '(e, k) := Calculate m g (m_controller c) in
  Some (e, (set_controller k c, emit (EvCalculate m g e) σ)).

(** [m_controller.GetSetpoint()] *)
Definition controller_GetSetpoint : M State := λ '(c, σ),
  let s := GetSetpoint (m_controller c) in
  Some (s, (c, emit (EvGetSetpoint s) σ)).

(** [m_measurement()] *)
Definition call_measurement : M Distance_t := λ '(c, σ),
  let '(m, w) := m_measurement c (world σ) in
  Some (m, (c, emit (EvMeasurement m) (set_world w σ))).

(** Invoking a [std::function<State()>].  The lifting lambda reads the
    object its captured reference designates; if that object is gone the
    call is undefined. *)
Definition invoke (g : StateFunction) (σ : Env) : option (State * World) :=
  match g with
  | Owning f => Some (f (world σ))
  | LiftByRef a =>
      match deref a σ with
      | Some goalSource =>
          let '(p, w) := goalSource (world σ) in
          Some (mkState p double_zero, w)
      | None => None
      end
  end.

(** [m_goal()] *)
Definition call_goal : M State := λ '(c, σ),
  match invoke (m_goal c) σ with
  | Some (g, w) => Some (g, (c, emit (EvGoal g) (set_world w σ)))
  | None => None
  end.

(** [m_useOutput(effort, setpoint)] *)
Definition call_useOutput (effort : double) (setpoint : State) : M () :=
  λ '(c, σ),
  Some ((), (c, emit (EvUseOutput effort setpoint)
                  (set_world (m_useOutput c effort setpoint (world σ)) σ))).

(** ** Evaluation order of the arguments of a call

    In [f(a, b)] either [a] is evaluated completely before [b] or [b]
    completely before [a] (C++17: indeterminately sequenced); the language
    leaves the choice to the implementation. *)

Inductive Sequencing : Type := LeftFirst | RightFirst.

Definition args2 {A B : Type} (o : Sequencing) (a : M A) (b : M B)
  : M (A * B) :=
  match o with
  | LeftFirst => x ← a; y ← b; mret (x, y)
  | RightFirst => y ← b; x ← a; mret (x, y)
  end.

(** The choices made for the two calls in the body of [Execute]: the
    arguments of [m_useOutput(..., ...)] and those of
    [m_controller.Calculate(..., ...)]. *)
Record EvalOrder : Type := mkOrder {
  of_useOutput : Sequencing;
  of_Calculate : Sequencing }.

(** ** Lifecycle methods *)

(** [void Initialize() override { m_controller.Reset(); }] *)
Definition Initialize : M () := controller_Reset.

(** [m_useOutput(m_controller.Calculate(m_measurement(), m_goal()),
                 m_controller.GetSetpoint());] *)
Definition Execute (ord : EvalOrder) : M () :=
  '(effort, setpoint) ←
    args2 (of_useOutput ord)
      ('(m, g) ← args2 (of_Calculate ord) call_measurement call_goal;
       controller_Calculate m g)
      controller_GetSetpoint;
  call_useOutput effort setpoint.

(** [m_useOutput(0, State{Distance_t(0), Velocity_t(0)});] *)
Definition End (interrupted : bool) : M () :=
  call_useOutput double_zero (mkState double_zero double_zero).

(** [GetController()] *)
Definition GetController (c : ProfiledPIDCommand) : Controller :=
  m_controller c.

(** ** Construction *)

(** Modelled from the spec: [CommandBase::AddRequirements] and the container
    behind it are declared in [frc2/command/CommandBase.h], which is not part
    of this header.  The specification says that the requirements are a set
    of subsystem identifiers, that duplicates are allowed in the input, and
    that each identifier is registered at most once. *)
Definition AddRequirements (requirements : list Subsystem)
    (c : ProfiledPIDCommand) : ProfiledPIDCommand :=
  mkCommand (list_to_set requirements ∪ m_requirements c)
    (m_controller c) (m_measurement c) (m_goal c) (m_useOutput c).

(** The canonical constructor: the members are initialised from the
    arguments, then the body registers the requirements.  The base-class
    subobject starts with no requirement. *)
Definition ProfiledPIDCommand_StateSource
    (controller : Controller) (measurementSource : DistanceFunction)
    (goalSource : StateFunction) (useOutput : OutputFunction)
    (requirements : list Subsystem) (σ : Env) : ProfiledPIDCommand * Env :=
  (AddRequirements requirements
     (mkCommand ∅ controller measurementSource goalSource useOutput), σ).

(** The position-valued goal source.  [goalSource] is a by-value parameter:
    an object of this constructor's frame.  The lambda [[&goalSource]]
    stores its address, the canonical constructor moves the lambda into
    [m_goal], and the parameter is destroyed when the construction is over.
    (The other parameters are objects of the frame too; nothing keeps their
    addresses.) *)
Definition ProfiledPIDCommand_DistanceSource
    (controller : Controller) (measurementSource : DistanceFunction)
    (goalSource : DistanceFunction) (useOutput : OutputFunction)
    (requirements : list Subsystem) (σ : Env) : ProfiledPIDCommand * Env :=
  let '(a, σ1) := alloc goalSource σ in
  let '(c, σ2) :=
    ProfiledPIDCommand_StateSource controller measurementSource
      (LiftByRef a) useOutput requirements σ1 in
  (c, dealloc a σ2).

(** The constant [State] goal: [[goal] { return goal; }] returns a [State],
    so the delegation selects the canonical constructor. *)
Definition ProfiledPIDCommand_StateGoal
    (controller : Controller) (measurementSource : DistanceFunction)
    (goal : State) (useOutput : OutputFunction)
    (requirements : list Subsystem) (σ : Env) : ProfiledPIDCommand * Env :=
  ProfiledPIDCommand_StateSource controller measurementSource
    (Owning (λ w, (goal, w))) useOutput requirements σ.

(** The constant position goal: here [[goal] { return goal; }] returns a
    distance.  A distance does not convert to the aggregate [State], so the
    lambda is not a [std::function<State()>]; the delegation selects the
    position-valued constructor, whose parameter [goalSource] is
    initialised from the lambda. *)
Definition ProfiledPIDCommand_DistanceGoal
    (controller : Controller) (measurementSource : DistanceFunction)
    (goal : Distance_t) (useOutput : OutputFunction)
    (requirements : list Subsystem) (σ : Env) : ProfiledPIDCommand * Env :=
  ProfiledPIDCommand_DistanceSource controller measurementSource
    (λ w, (goal, w)) useOutput requirements σ.

(** ** The scheduler's view: sequences of lifecycle calls *)

Inductive Call : Type :=
| CallInitialize
| CallExecute
| CallEnd (interrupted : bool).

Definition is_CallInitialize (k : Call) : bool :=
  match k with CallInitialize => true | _ => false end.

Inductive step :
  ProfiledPIDCommand * Env → Call → ProfiledPIDCommand * Env → Prop :=
| step_Initialize st st' :
    Initialize st = Some ((), st') → step st CallInitialize st'
| step_Execute ord st st' :
    Execute ord st = Some ((), st') → step st CallExecute st'
| step_End interrupted st st' :
    End interrupted st = Some ((), st') → step st (CallEnd interrupted) st'.

Inductive steps :
  ProfiledPIDCommand * Env → list Call → ProfiledPIDCommand * Env → Prop :=
| steps_nil st : steps st [] st
| steps_cons st k st' ks st'' :
    step st k st' → steps st' ks st'' → steps st (k :: ks) st''.

(** One scheduler in which every [Execute] uses the same order; [run]
    executes a sequence of calls and stops at undefined behaviour. *)
Definition call (ord : EvalOrder) (k : Call) : M () :=
  match k with
  | CallInitialize => Initialize
  | CallExecute => Execute ord
  | CallEnd interrupted => End interrupted
  end.

Fixpoint run (ord : EvalOrder) (ks : list Call)
    (st : ProfiledPIDCommand * Env) : option (ProfiledPIDCommand * Env) :=
  match ks with
  | [] => Some st
  | k :: ks =>
      match call ord k st with
      | Some (_, st') => run ord ks st'
      | None => None
      end
  end.

(** The goal callable of a command can be invoked: the object a captured
    reference designates is still there. *)
Definition goal_alive (st : ProfiledPIDCommand * Env) : Prop :=
  match m_goal st.1 with
  | Owning _ => True
  | LiftByRef a => is_Some (deref a st.2)
  end.

(** ** Vocabulary for the statements *)

(** The zero state written by [End]. *)
Definition zero_State : State := mkState double_zero double_zero.

(** The events of one [Execute] in which the measurement source returned
    [m], the goal source [g], [Calculate] [e] and [GetSetpoint] [s], under
    the evaluation order [ord]. *)
Definition tick_events (ord : EvalOrder) (m : Distance_t) (g : State)
    (e : double) (s : State) : list Event :=
  let inputs :=
    match of_Calculate ord with
    | LeftFirst => [EvMeasurement m; EvGoal g]
    | RightFirst => [EvGoal g; EvMeasurement m]
    end in
  let calculate := inputs ++ [EvCalculate m g e] in
  match of_useOutput ord with
  | LeftFirst => calculate ++ [EvGetSetpoint s]
  | RightFirst => EvGetSetpoint s :: calculate
  end ++ [EvUseOutput e s].

(** The order the specification asks for. *)
Definition specified_tick (m : Distance_t) (g : State) (e : double)
    (s : State) : list Event :=
  [EvMeasurement m; EvGoal g; EvCalculate m g e; EvGetSetpoint s;
   EvUseOutput e s].

(** The canonical goal source the specification compares the
    position-valued form with: a [State]-valued callable that wraps the
    position function and supplies a zero velocity. *)
Definition lift_position (goalSource : DistanceFunction) : StateFunction :=
  Owning (λ w, let '(p, w') := goalSource w in (mkState p double_zero, w')).

(** The requirements a command reports are exactly the identifiers in
    [requirements], each once. *)
Definition reports (st : ProfiledPIDCommand * Env)
    (requirements : list Subsystem) : Prop :=
  m_requirements st.1 = list_to_set requirements
  ∧ NoDup (elements (m_requirements st.1))
  ∧ ∀ s, s ∈ elements (m_requirements st.1) ↔ s ∈ requirements.

(** A construction that stores [controller] as it is and calls nobody: the
    environment, and so the log and the world, is as before. *)
Definition silent (controller : Controller) (σ : Env)
    (st : ProfiledPIDCommand * Env) : Prop :=
  m_controller st.1 = controller ∧ st.2 = σ.

(** Every [Calculate] among [evs] received the goal [goal]. *)
Definition goals_are (goal : State) (evs : list Event) : Prop :=
  Forall (λ ev, match ev with EvCalculate _ g _ => g = goal | _ => True end)
    evs.

(** [k] ticks of the scheduler. *)
Definition ticks (k : nat) : list Call := replicate k CallExecute.

Definition is_CallExecute (k : Call) : bool :=
  match k with CallExecute => true | _ => false end.
Definition is_CallEnd (k : Call) : bool :=
  match k with CallEnd _ => true | _ => false end.

(** How many calls of one kind a sequence of lifecycle calls holds, and how
    many events of one kind a log holds. *)
Definition how_many (kind : Call → bool) (ks : list Call) : nat :=
  length (List.filter kind ks).
Definition times (kind : Event → bool) (evs : list Event) : nat :=
  length (calls kind evs).

(** A callable that reads the world and leaves it as it is. *)
Definition reads_only {A : Type} (f : World → A * World) : Prop :=
  ∀ w, (f w).2 = w.

End ProfiledPIDCommand.

Arguments Distance_t double : clear implicits.
Arguments Velocity_t double : clear implicits.
Arguments State double : clear implicits.
Arguments Event double : clear implicits.
Arguments ProfiledPIDController double Controller : clear implicits.
Arguments DistanceFunction double World : clear implicits.
Arguments OutputFunction double World : clear implicits.
Arguments StateFunction double World : clear implicits.
Arguments Env double World : clear implicits.
Arguments ProfiledPIDCommand double World Subsystem {_ _} Controller.

(** ** Test doubles

    Quantities are integers here; the controller is a stub whose setpoint
    moves at every [Calculate], and the world holds one sensor reading, one
    commanded position and everything the output consumer has received. *)

Module Stub.

#[export] Instance Z_Double : Double Z := 0%Z.

(** The stub controller counts how far its profile has advanced. *)
Record Ramp : Type := mkRamp { advanced : Z }.

#[export] Instance Ramp_controller : ProfiledPIDController Z Ramp := {|
  Calculate m g k := ((position g - m)%Z, mkRamp (advanced k + 1));
  GetSetpoint k := mkState (advanced k) 0%Z;
  Reset k := mkRamp 0 |}.

Record Plant : Type := mkPlant {
  sensor : Z;
  target : Z;
  received : list (Z * State Z) }.

Definition read_sensor : Plant → Z * Plant := λ w, (sensor w, w).
Definition read_target : Plant → Z * Plant := λ w, (target w, w).
Definition read_goal : Plant → State Z * Plant :=
  λ w, (mkState (target w) 0%Z, w).
Definition drive : Z → State Z → Plant → Plant :=
  λ e s w, mkPlant (sensor w) (target w) (received w ++ [(e, s)]).

Definition plant0 : Plant := mkPlant 2 10 [].
Definition env0 : Env Z Plant := mkEnv plant0 [] ∅.

(** Subsystems are identified by numbers. *)
Definition canonical : ProfiledPIDCommand Z Plant nat Ramp * Env Z Plant :=
  ProfiledPIDCommand_StateSource (mkRamp 3) read_sensor (Owning read_goal)
    drive [1; 2; 1] env0.

Definition left_to_right : EvalOrder := mkOrder LeftFirst LeftFirst.
Definition right_to_left : EvalOrder := mkOrder RightFirst RightFirst.

(** Only the arguments of [m_useOutput] are taken from the right. *)
Definition setpoint_first : EvalOrder := mkOrder RightFirst LeftFirst.

(** The same collaborators through the other three construction forms. *)
Definition from_position : ProfiledPIDCommand Z Plant nat Ramp * Env Z Plant :=
  ProfiledPIDCommand_DistanceSource (mkRamp 3) read_sensor read_target
    drive [1; 2; 1] env0.

Definition constant_state : ProfiledPIDCommand Z Plant nat Ramp * Env Z Plant :=
  ProfiledPIDCommand_StateGoal (mkRamp 3) read_sensor (mkState 4%Z 1%Z)
    drive [1; 2; 1] env0.

Definition constant_position : ProfiledPIDCommand Z Plant nat Ramp * Env Z Plant :=
  ProfiledPIDCommand_DistanceGoal (mkRamp 3) read_sensor 5%Z
    drive [1; 2; 1] env0.

End Stub.

(** * Properties *)

Section Properties.

Context {double : Type} `{!Double double} {World : Type}.
Context {Subsystem : Type} `{Countable Subsystem}.
Context {Controller : Type} `{!ProfiledPIDController double Controller}.

Implicit Types (c : ProfiledPIDCommand double World Subsystem Controller).
Implicit Types (σ : Env double World).
Implicit Types
  (st : ProfiledPIDCommand double World Subsystem Controller * Env double World).
Implicit Types (ord : EvalOrder) (evs : list (Event double)).

(** ** Single calls *)

Lemma End_eq interrupted c σ :
  End interrupted (c, σ) =
    Some ((), (c, emit (EvUseOutput double_zero zero_State)
                    (set_world (m_useOutput c double_zero zero_State (world σ)) σ))).
Proof. reflexivity. Qed.

Lemma Initialize_eq c σ :
  Initialize (c, σ) =
    Some ((), (set_controller (Reset (m_controller c)) c, emit EvReset σ)).
Proof. reflexivity. Qed.

(** Invoking the goal callable depends on the world and on the frames. *)
Lemma invoke_alive c σ w :
  goal_alive (c, σ) → is_Some (invoke (m_goal c) (set_world w σ)).
Proof.
  unfold goal_alive, invoke; simpl.
  destruct (m_goal c) as [f|a]; [eauto|].
  change (deref a (set_world w σ)) with (deref a σ).
  intros [gs ->]. destruct (gs w); eauto.
Qed.

Lemma invoke_log (g : StateFunction double World) w l l' fr :
  invoke g (mkEnv w l fr) = invoke g (mkEnv w l' fr).
Proof. by destruct g. Qed.

Ltac tick_with m g l Hm Hg :=
  rewrite ?(invoke_log _ _ _ l), ?Hm, ?Hg; cbn [world log frames];
  rewrite ?(invoke_log _ _ _ l), ?Hm, ?Hg; cbn [world log frames];
  match goal with
  | |- context [Calculate m g ?k0] =>
      let e := fresh "e" in let k := fresh "k" in
      destruct (Calculate m g k0) as [e k] eqn:?;
      cbn [world log frames m_controller m_useOutput set_controller];
      exists m, g, e; do 3 eexists;
      repeat split; eauto; by rewrite <- !app_assoc
  end.

(** One tick of a command whose goal callable can be invoked: the result
    exists, and this is all it does. *)
Lemma Execute_alive ord c σ :
  goal_alive (c, σ) →
  ∃ m g e s k w,
    Execute ord (c, σ) =
      Some ((), (set_controller k c,
                 mkEnv w (log σ ++ tick_events ord m g e s) (frames σ)))
    ∧ (∃ w0 w1, m_measurement c w0 = (m, w1))
    ∧ (∃ w0 w1, invoke (m_goal c) (set_world w0 σ) = Some (g, w1))
    ∧ Calculate m g (m_controller c) = (e, k)
    ∧ s = GetSetpoint (match of_useOutput ord with
                       | LeftFirst => k
                       | RightFirst => m_controller c
                       end).
Proof.
  intros Hg.
  destruct (m_measurement c (world σ)) as [m1 w1] eqn:Hm1.
  destruct (invoke_alive c σ w1 Hg) as [[g1 v1] Hg1].
  destruct (invoke_alive c σ (world σ) Hg) as [[g2 v2] Hg2].
  destruct (m_measurement c v2) as [m2 w2] eqn:Hm2.
  destruct σ as [w0 l0 fr0]; unfold set_world in *; cbn [world log frames] in *.
  destruct ord as [[] []];
    unfold Execute, args2, mbind, mret, M_bind, M_ret, call_measurement,
      call_goal, controller_Calculate, controller_GetSetpoint, call_useOutput,
      emit, set_world, tick_events;
    cbn [world log frames m_measurement m_goal m_controller m_useOutput
         set_controller of_useOutput of_Calculate].
  - tick_with m1 g1 l0 Hm1 Hg1.
  - tick_with m2 g2 l0 Hm2 Hg2.
  - tick_with m1 g1 l0 Hm1 Hg1.
  - tick_with m2 g2 l0 Hm2 Hg2.
Qed.

(** X4.  Under the left-to-right order the events of a tick are the five steps
    in the order the specification lists them, and the setpoint is read
    from the controller that [Calculate] has advanced. *)
Lemma Execute_left_to_right c σ :
  goal_alive (c, σ) →
  ∃ m g e k w,
    Execute (mkOrder LeftFirst LeftFirst) (c, σ) =
      Some ((), (set_controller k c,
                 mkEnv w (log σ ++ specified_tick m g e (GetSetpoint k))
                   (frames σ)))
    ∧ Calculate m g (m_controller c) = (e, k).
Proof.
  intros Hg.
  destruct (Execute_alive (mkOrder LeftFirst LeftFirst) c σ Hg)
    as (m & g & e & s & k & w & HE & _ & _ & Hc & ->).
  by exists m, g, e, k, w.
Qed.

(** X3.  The setpoint handed to the consumer is read either from the controller
    that this tick's [Calculate] has advanced, or from the controller as the
    previous tick left it, depending on the order chosen for the arguments
    of [m_useOutput]. *)
Lemma Execute_setpoint_argument ord c σ :
  goal_alive (c, σ) →
  ∃ m g e k st' before,
    Execute ord (c, σ) = Some ((), st')
    ∧ Calculate m g (m_controller c) = (e, k)
    ∧ log st'.2 =
        log σ ++ before ++
        [EvUseOutput e (GetSetpoint (match of_useOutput ord with
                                     | LeftFirst => k
                                     | RightFirst => m_controller c
                                     end))].
Proof.
  intros Hg.
  destruct (Execute_alive ord c σ Hg)
    as (m & g & e & s & k & w & HE & _ & _ & Hc & ->).
  exists m, g, e, k. eexists.
  eexists (removelast (tick_events ord m g e _)).
  split; [exact HE|]. split; [exact Hc|]. by destruct ord as [[] []].
Qed.

(** X1.  Whatever the order, the output consumer is called once, last, and
    its effort is the value the single [Calculate] of the tick returned. *)
Lemma Execute_output_once ord c σ :
  goal_alive (c, σ) →
  ∃ m g e s st' before,
    Execute ord (c, σ) = Some ((), st')
    ∧ log st'.2 = log σ ++ before ++ [EvUseOutput e s]
    ∧ calls is_useOutput before = []
    ∧ calls is_calculate before = [EvCalculate m g e].
Proof.
  intros Hg.
  destruct (Execute_alive ord c σ Hg)
    as (m & g & e & s & k & w & HE & _ & _ & _ & _).
  exists m, g, e, s. eexists. 
  exists (removelast (tick_events ord m g e s)).
  split; [exact HE|]. by destruct ord as [[] []].
Qed.

(** ** The member functions never touch the frames or the callables *)

Lemma step_preserves st k st' :
  step st k st' →
  m_goal st'.1 = m_goal st.1 ∧ frames st'.2 = frames st.2
  ∧ m_measurement st'.1 = m_measurement st.1
  ∧ m_useOutput st'.1 = m_useOutput st.1
  ∧ m_requirements st'.1 = m_requirements st.1.
Proof.
  destruct 1 as [[c0 σ0] st' HI|ord [c0 σ0] st' HE|b [c0 σ0] st' HE].
  - rewrite Initialize_eq in HI. by simplify_eq.
  - unfold Execute, args2, mbind, mret, M_bind, M_ret, call_measurement,
      call_goal, controller_Calculate, controller_GetSetpoint, call_useOutput
      in HE.
    destruct ord as [[] []]; cbn [of_useOutput of_Calculate] in HE;
      repeat case_match; by simplify_eq.
  - rewrite End_eq in HE. by simplify_eq.
Qed.

Lemma step_goal_alive st k st' :
  step st k st' → goal_alive st → goal_alive st'.
Proof.
  intros (Hg & Hf & _)%step_preserves. unfold goal_alive, deref.
  by rewrite Hg, Hf.
Qed.

(** The events a call adds to the log. *)
Lemma step_log st k st' :
  step st k st' →
  ∃ evs, log st'.2 = log st.2 ++ evs
    ∧ calls is_reset evs = (if is_CallInitialize k then [EvReset] else []).
Proof.
  destruct 1 as [[c σ] st' HI|ord [c σ] st' HE|b [c σ] st' HE].
  - rewrite Initialize_eq in HI. simplify_eq. by exists [EvReset].
  - unfold Execute, args2, mbind, mret, M_bind, M_ret, call_measurement,
      call_goal, controller_Calculate, controller_GetSetpoint, call_useOutput
      in HE.
    destruct ord as [[] []]; cbn [of_useOutput of_Calculate] in HE;
      repeat case_match; simplify_eq; cbn [snd log emit set_world];
      rewrite <- ?app_assoc; by eexists.
  - rewrite End_eq in HE. simplify_eq. by eexists.
Qed.

(** The log only grows. *)
Lemma steps_log st ks st' :
  steps st ks st' → ∃ evs, log st'.2 = log st.2 ++ evs.
Proof.
  induction 1 as [st|st k st1 ks st2 Hk Hks (evs2 & Hl2)].
  - exists []. by rewrite app_nil_r.
  - destruct (step_log _ _ _ Hk) as (evs1 & Hl1 & _).
    exists (evs1 ++ evs2). by rewrite Hl2, Hl1, app_assoc.
Qed.

Lemma call_step ord k st st' :
  call ord k st = Some ((), st') → step st k st'.
Proof. destruct k; cbn [call]; by econstructor. Qed.

(** A command whose goal callable can be invoked accepts every sequence of
    lifecycle calls, under every evaluation order: [run] is total on it. *)
Lemma run_total ord ks st : goal_alive st → is_Some (run ord ks st).
Proof.
  revert st. induction ks as [|k ks IH]; intros [c σ] Hg; cbn [run]; [eauto|].
  assert (∃ st1, call ord k (c, σ) = Some ((), st1)) as [st1 Hk].
  { destruct k as [| |b]; cbn [call].
    - eexists. apply Initialize_eq.
    - destruct (Execute_alive ord c σ Hg) as (?&?&?&?&?&?&HE&_). eauto.
    - eexists. apply End_eq. }
  rewrite Hk. apply IH. eapply step_goal_alive; [|done]. by eapply call_step.
Qed.

Lemma Execute_calculate_once ord c σ :
  goal_alive (c, σ) →
  ∃ m g e st' evs,
    Execute ord (c, σ) = Some ((), st')
    ∧ log st'.2 = log σ ++ evs
    ∧ calls is_calculate evs = [EvCalculate m g e]
    ∧ ∃ w0 w1, invoke (m_goal c) (set_world w0 σ) = Some (g, w1).
Proof.
  intros Hg.
  destruct (Execute_alive ord c σ Hg)
    as (m & g & e & s & k & w & HE & Hm & Hi & _ & _).
  exists m, g, e. do 2 eexists. split; [exact HE|].
  split; [reflexivity|]. by destruct ord as [[] []].
Qed.

Lemma run_steps ord ks st st' : run ord ks st = Some st' → steps st ks st'.
Proof.
  revert st. induction ks as [|k ks IH]; intros st; cbn [run].
  - intros [= ->]. constructor.
  - destruct (call ord k st) as [[[] st1]|] eqn:Hk; [|done].
    intros Hks. apply (steps_cons st k st1); [|by apply IH].
    by eapply call_step.
Qed.

Lemma lifecycle_progress ks st : goal_alive st → ∃ st', steps st ks st'.
Proof.
  intros [st' Hr]%(run_total (mkOrder LeftFirst LeftFirst) ks).
  exists st'. by eapply run_steps.
Qed.

(** ** Lifecycle claims *)

(** C3 (input freshness).  In one [Execute] of a command whose goal callable
    can be invoked, under every evaluation order, the measurement source and
    the goal source are each called exactly once, and [Calculate] is called
    once with exactly the two values they returned. *)
Theorem Execute_input_freshness ord c σ :
  goal_alive (c, σ) →
  ∃ m g e st' evs,
    Execute ord (c, σ) = Some ((), st')
    ∧ log st'.2 = log σ ++ evs
    ∧ calls is_measurement evs = [EvMeasurement m]
    ∧ calls is_goal evs = [EvGoal g]
    ∧ calls is_calculate evs = [EvCalculate m g e]
    ∧ (∃ w0 w1, m_measurement c w0 = (m, w1))
    ∧ (∃ w0 w1, invoke (m_goal c) (set_world w0 σ) = Some (g, w1)).
Proof.
  intros Hg.
  destruct (Execute_alive ord c σ Hg)
    as (m & g & e & s & k & w & HE & Hm & Hi & _ & _).
  exists m, g, e. do 2 eexists. split; [exact HE|].
  split; [reflexivity|]. by destruct ord as [[] []].
Qed.

(** C4 (clean shutdown).  [End], with either value of [interrupted], succeeds,
    calls the output consumer exactly once with effort zero and a state whose
    position and velocity are zero, and does nothing else: the command (and
    so its controller) is unchanged and the only new event is that call, so
    there is no [Calculate]. *)
Theorem End_clean_shutdown interrupted c σ :
  ∃ s σ',
    End interrupted (c, σ) = Some ((), (c, σ'))
    ∧ log σ' = log σ ++ [EvUseOutput double_zero s]
    ∧ position s = double_zero ∧ velocity s = double_zero
    ∧ world σ' = m_useOutput c double_zero s (world σ)
    ∧ frames σ' = frames σ.
Proof. exists zero_State. eexists. by rewrite End_eq. Qed.

(** C5 (reset on entry).  [Initialize] succeeds and is exactly one [Reset] of
    the controller: the world, the frames and the other members are
    unchanged and the only new event is [EvReset].  In every continuation
    that [Reset] precedes all later events, hence every later [Calculate]. *)
Theorem Initialize_only_resets c σ :
  Initialize (c, σ) =
    Some ((), (set_controller (Reset (m_controller c)) c,
               mkEnv (world σ) (log σ ++ [EvReset]) (frames σ)))
  ∧ ∀ ks st',
      steps (set_controller (Reset (m_controller c)) c, emit EvReset σ) ks st' →
      ∃ later, log st'.2 = log σ ++ EvReset :: later.
Proof.
  split; [reflexivity|]. intros ks st' (evs & Hl)%steps_log.
  exists evs. by rewrite Hl; cbn [snd log emit]; rewrite <- app_assoc.
Qed.

(** C10 (reset only on entry).  In every run of lifecycle calls, under every
    evaluation order, the number of [Reset] calls the controller receives is
    the number of [Initialize] calls in the run: [Execute] and [End] never
    reset ([step_log] gives the events of a single call).  Such runs exist
    for every sequence of calls ([run_total], [lifecycle_progress]). *)
Theorem Reset_exactly_on_Initialize st ks st' :
  steps st ks st' →
  ∃ evs, log st'.2 = log st.2 ++ evs
    ∧ length (calls is_reset evs) = length (List.filter is_CallInitialize ks).
Proof.
  induction 1 as [st|st k st1 ks st2 Hk Hks (evs2 & Hl2 & Hn2)].
  - exists []. by rewrite app_nil_r.
  - destruct (step_log _ _ _ Hk) as (evs1 & Hl1 & Hn1).
    exists (evs1 ++ evs2). split.
    + by rewrite Hl2, Hl1, app_assoc.
    + unfold calls in *. cbn [List.filter].
      rewrite List.filter_app, length_app, Hn1, Hn2.
      by destruct k.
Qed.

(** ** Construction claims *)

Lemma Execute_dangling ord c σ :
  ¬ goal_alive (c, σ) → Execute ord (c, σ) = None.
Proof.
  unfold goal_alive; cbn [fst snd]. intros Hg.
  destruct (m_goal c) as [f|a] eqn:Hgoal; [by destruct Hg|].
  assert (∀ w l, invoke (LiftByRef a) (mkEnv w l (frames σ)) = None) as Hi.
  { intros w l. unfold invoke. change (deref a _) with (deref a σ).
    destruct (deref a σ); [destruct Hg; eauto|done]. }
  destruct (m_measurement c (world σ)) as [m1 w1] eqn:Hm1.
  destruct σ as [w0 l0 fr0]; cbn [world log frames] in *.
  destruct ord as [[] []];
    unfold Execute, args2, mbind, mret, M_bind, M_ret, call_measurement,
      call_goal, controller_GetSetpoint, emit, set_world;
    cbn [world log frames m_measurement m_goal m_controller
         of_useOutput of_Calculate];
    by rewrite ?Hm1, ?Hgoal, ?Hi.
Qed.

(** What the position-valued constructor leaves behind: [m_goal] holds the
    address of a parameter that no longer exists. *)
Lemma DistanceSource_dangling controller measurementSource goalSource
    useOutput (requirements : list Subsystem) σ :
  ¬ goal_alive (ProfiledPIDCommand_DistanceSource (Controller := Controller)
                  controller measurementSource goalSource useOutput
                  requirements σ).
Proof.
  unfold goal_alive, ProfiledPIDCommand_DistanceSource, alloc, dealloc, deref.
  cbn. rewrite lookup_delete_eq. by intros [? ?].
Qed.

(** While the parameter exists, the lambda does what the specification says:
    it is the canonical lifting of the position function. *)
Lemma invoke_LiftByRef_alive a
    (goalSource : DistanceFunction double World) σ :
  deref a σ = Some goalSource →
  invoke (LiftByRef a) σ = invoke (lift_position goalSource) σ.
Proof.
  unfold invoke, lift_position. intros ->.
  by destruct (goalSource (world σ)).
Qed.

(** The canonical constructor given that lifting passes a goal with zero
    velocity and the position function's value, on every tick. *)
Lemma canonical_lifted_goal ord c σ
    (goalSource : DistanceFunction double World) :
  m_goal c = lift_position goalSource →
  ∃ m g e st' evs,
    Execute ord (c, σ) = Some ((), st')
    ∧ log st'.2 = log σ ++ evs
    ∧ calls is_calculate evs = [EvCalculate m g e]
    ∧ velocity g = double_zero
    ∧ ∃ w0, position g = (goalSource w0).1.
Proof.
  intros Hgoal.
  assert (goal_alive (c, σ)) as Hg
    by (unfold goal_alive; cbn [fst]; by rewrite Hgoal).
  destruct (Execute_calculate_once ord c σ Hg)
    as (m & g & e & st' & evs & HE & Hl & Hc & w0 & w1 & Hi).
  exists m, g, e, st', evs. repeat split; try done.
  - rewrite Hgoal in Hi. cbn in Hi. destruct (goalSource w0); by simplify_eq.
  - exists w0. rewrite Hgoal in Hi. cbn in Hi.
    destruct (goalSource w0); by simplify_eq.
Qed.

(** A command whose goal callable returns a constant passes it on in every
    call. *)
Lemma step_constant_goal (goal : State double) st k st' :
  m_goal st.1 = Owning (λ w, (goal, w)) →
  step st k st' →
  ∃ evs, log st'.2 = log st.2 ++ evs ∧ goals_are goal evs.
Proof.
  intros Hgoal Hstep.
  destruct Hstep as [[c0 σ0] st' HI|ord [c0 σ0] st' HE|b [c0 σ0] st' HE];
    cbn [fst snd] in *.
  - rewrite Initialize_eq in HI. simplify_eq.
    exists [EvReset]. split; [done|]. by repeat constructor.
  - assert (goal_alive (c0, σ0)) as Hg
      by (unfold goal_alive; cbn [fst]; by rewrite Hgoal).
    destruct (Execute_alive ord c0 σ0 Hg)
      as (m & g & e & s & k & w & HE' & _ & (w0 & w1 & Hi) & _ & _).
    rewrite HE' in HE. rewrite Hgoal in Hi. cbn in Hi. simplify_eq.
    eexists. split; [done|].
    destruct ord as [[] []]; by repeat constructor.
  - rewrite End_eq in HE. simplify_eq.
    eexists. split; [done|]. by repeat constructor.
Qed.

(** X9.  The constant [State] form: in every run of lifecycle calls, under
    every evaluation order, every [Calculate] receives exactly the constant
    given at construction, velocity included. *)
Lemma constant_State_goal_stable controller measurementSource
    (goal : State double) useOutput (requirements : list Subsystem) σ ks st' :
  steps (ProfiledPIDCommand_StateGoal (Controller := Controller) controller
           measurementSource goal useOutput requirements σ) ks st' →
  ∃ evs, log st'.2 = log σ ++ evs ∧ goals_are goal evs.
Proof.
  change (log σ) with
    (log (ProfiledPIDCommand_StateGoal (Controller := Controller) controller
            measurementSource goal useOutput requirements σ).2).
  assert (m_goal (ProfiledPIDCommand_StateGoal (Controller := Controller)
                    controller measurementSource goal useOutput requirements
                    σ).1 = Owning (λ w, (goal, w))) as Hgoal by done.
  revert Hgoal.
  generalize (ProfiledPIDCommand_StateGoal (Controller := Controller)
                controller measurementSource goal useOutput requirements σ).
  intros st Hgoal Hks.
  induction Hks as [st|st k st1 ks st2 Hk Hks IH].
  - exists []. split; [by rewrite app_nil_r|constructor].
  - destruct (step_constant_goal goal _ _ _ Hgoal Hk) as (evs1 & Hl1 & Hg1).
    destruct (step_preserves _ _ _ Hk) as (Hsame & _).
    destruct IH as (evs2 & Hl2 & Hg2); [by rewrite Hsame|].
    exists (evs1 ++ evs2). split; [by rewrite Hl2, Hl1, app_assoc|].
    by apply Forall_app.
Qed.

(** C6 (goal canonicalisation).  The position-valued constructor does not
    behave like the canonical constructor given the lifted position function.
    The canonical one runs every tick (and passes a goal with zero velocity,
    [canonical_lifted_goal]).  The position-valued one stores a lambda that
    refers to its own parameter [goalSource]; after construction that
    parameter is gone, and every [Execute], under every evaluation order,
    calls through the dead reference: its behaviour is undefined. *)
Theorem position_goalSource_dangles ord controller measurementSource
    goalSource useOutput (requirements : list Subsystem) σ :
  (∃ a, m_goal (ProfiledPIDCommand_DistanceSource (Controller := Controller)
                  controller measurementSource goalSource useOutput
                  requirements σ).1 = LiftByRef a
        ∧ deref a (ProfiledPIDCommand_DistanceSource (Controller := Controller)
                     controller measurementSource goalSource useOutput
                     requirements σ).2 = None)
  ∧ Execute ord (ProfiledPIDCommand_DistanceSource controller
                   measurementSource goalSource useOutput requirements σ)
    = None
  ∧ is_Some (Execute ord (ProfiledPIDCommand_StateSource controller
                            measurementSource (lift_position goalSource)
                            useOutput requirements σ)).
Proof.
  split; [|split].
  - eexists. split; [reflexivity|]. apply lookup_delete_eq.
  - destruct (ProfiledPIDCommand_DistanceSource _ _ _ _ _ _) as [c σ'] eqn:E.
    apply Execute_dangling. rewrite <- E. apply DistanceSource_dangling.
  - destruct (Execute_alive ord
                (ProfiledPIDCommand_StateSource controller measurementSource
                   (lift_position goalSource) useOutput requirements σ).1 σ)
      as (?&?&?&?&?&?&HE&_); [done|].
    unfold ProfiledPIDCommand_StateSource in *; cbn [fst] in HE.
    by rewrite HE.
Qed.

(** C7 (constant-goal stability).  The constant [State] form passes the
    constant to every [Calculate] ([constant_State_goal_stable]).  The
    constant position form does not: its lambda returns a distance, so the
    delegation goes through the position-valued constructor, and the stored
    goal callable refers to that constructor's dead parameter.  Every
    [Execute] of such a command is undefined; no goal reaches [Calculate]. *)
Theorem constant_position_goal_dangles ord controller measurementSource
    (goal : Distance_t double) useOutput (requirements : list Subsystem) σ :
  Execute ord (ProfiledPIDCommand_DistanceGoal (Controller := Controller)
                 controller measurementSource goal useOutput requirements σ)
  = None.
Proof.
  unfold ProfiledPIDCommand_DistanceGoal.
  destruct (ProfiledPIDCommand_DistanceSource _ _ _ _ _ _) as [c σ'] eqn:E.
  apply Execute_dangling. rewrite <- E. apply DistanceSource_dangling.
Qed.

Lemma reports_list_to_set st (requirements : list Subsystem) :
  m_requirements st.1 = list_to_set requirements ∪ ∅ →
  reports st requirements.
Proof.
  rewrite (right_id_L ∅ (∪)). intros Hr. unfold reports. rewrite Hr.
  split; [done|]. split; [apply NoDup_elements|].
  intros s. by rewrite elem_of_elements, elem_of_list_to_set.
Qed.

(** C8 (subsystem registration).  For each of the four construction forms
    and every list of requirements, empty or with repetitions, the command
    reports exactly the identifiers of the list, each once. *)
Theorem requirements_registered (controller : Controller) measurementSource
    goalSource positionSource (goal : State double)
    (position_goal : Distance_t double) useOutput
    (requirements : list Subsystem) σ :
  reports (ProfiledPIDCommand_StateSource controller measurementSource
             goalSource useOutput requirements σ) requirements
  ∧ reports (ProfiledPIDCommand_DistanceSource controller measurementSource
               positionSource useOutput requirements σ) requirements
  ∧ reports (ProfiledPIDCommand_StateGoal controller measurementSource
               goal useOutput requirements σ) requirements
  ∧ reports (ProfiledPIDCommand_DistanceGoal controller measurementSource
               position_goal useOutput requirements σ) requirements.
Proof. split_and!; by apply reports_list_to_set. Qed.

(** C9 (silent construction).  None of the four construction forms calls the
    controller, a source or the output consumer: the controller is stored as
    given and the environment after the construction is the environment
    before it, with the same log (no call was made) and the same world. *)
Theorem construction_is_silent (controller : Controller) measurementSource
    goalSource positionSource (goal : State double)
    (position_goal : Distance_t double) useOutput
    (requirements : list Subsystem) σ :
  silent controller σ
    (ProfiledPIDCommand_StateSource controller measurementSource goalSource
       useOutput requirements σ)
  ∧ silent controller σ
      (ProfiledPIDCommand_DistanceSource controller measurementSource
         positionSource useOutput requirements σ)
  ∧ silent controller σ
      (ProfiledPIDCommand_StateGoal controller measurementSource goal
         useOutput requirements σ)
  ∧ silent controller σ
      (ProfiledPIDCommand_DistanceGoal controller measurementSource
         position_goal useOutput requirements σ).
Proof.
  assert (∀ goalSource', silent controller σ
            (ProfiledPIDCommand_DistanceSource controller measurementSource
               goalSource' useOutput requirements σ)) as Hposition.
  { intros goalSource'. split; [done|].
    unfold ProfiledPIDCommand_DistanceSource, alloc, dealloc; cbn.
    destruct σ as [w l fr]; cbn. f_equal.
    apply delete_insert_id, not_elem_of_dom, is_fresh. }
  split_and!; [done|apply Hposition|done|apply Hposition].
Qed.

(** ** Further properties of the lifecycle *)

Lemma Execute_Some_alive ord c σ st' :
  Execute ord (c, σ) = Some ((), st') → goal_alive (c, σ).
Proof.
  intros HE.
  assert (goal_alive (c, σ) ∨ ¬ goal_alive (c, σ)) as [Hg|Hg]; [|done|].
  - unfold goal_alive; cbn [fst snd].
    destruct (m_goal c) as [f|a]; [by left|].
    destruct (deref a σ); [left; eauto|right; by intros [? ?]].
  - by rewrite (Execute_dangling ord c σ Hg) in HE.
Qed.

(** The events of one call, kind by kind. *)
Lemma step_times st k st' :
  step st k st' →
  ∃ evs, log st'.2 = log st.2 ++ evs
    ∧ times is_measurement evs = how_many is_CallExecute [k]
    ∧ times is_goal evs = how_many is_CallExecute [k]
    ∧ times is_calculate evs = how_many is_CallExecute [k]
    ∧ times is_getSetpoint evs = how_many is_CallExecute [k]
    ∧ times is_useOutput evs
      = how_many is_CallExecute [k] + how_many is_CallEnd [k].
Proof.
  destruct 1 as [[c σ] st' HI|ord [c σ] st' HE|b [c σ] st' HE].
  - rewrite Initialize_eq in HI. simplify_eq. by exists [EvReset].
  - destruct (Execute_alive ord c σ (Execute_Some_alive _ _ _ _ HE))
      as (m & g & e & s & k & w & HE' & _).
    rewrite HE' in HE. simplify_eq. eexists. split; [reflexivity|].
    by destruct ord as [[] []].
  - rewrite End_eq in HE. simplify_eq. by eexists.
Qed.

Lemma how_many_cons kind k ks :
  how_many kind (k :: ks) = how_many kind [k] + how_many kind ks.
Proof. unfold how_many. cbn [List.filter]. by destruct (kind k). Qed.

Lemma times_app kind evs1 evs2 :
  times (double := double) kind (evs1 ++ evs2)
  = times kind evs1 + times kind evs2.
Proof. unfold times, calls. by rewrite List.filter_app, length_app. Qed.

Lemma steps_app_inv st ks1 ks2 st' :
  steps st (ks1 ++ ks2) st' → ∃ st1, steps st ks1 st1 ∧ steps st1 ks2 st'.
Proof.
  revert st. induction ks1 as [|k ks1 IH]; intros st; cbn [app].
  - intros Hs. exists st. split; [constructor|done].
  - inversion 1 as [|? ? st0 ? ? Hk Hks]; subst.
    destruct (IH _ Hks) as (st1 & H1 & H2).
    exists st1. split; [by econstructor|done].
Qed.

(** X2.  Whatever the order, both sources are called before [Calculate],
    [Calculate] before the output consumer, and [GetSetpoint] somewhere
    before the output consumer: this much of the order the nesting of the
    calls does fix. *)
Theorem Execute_sources_precede_Calculate ord c σ :
  goal_alive (c, σ) →
  ∃ m g e s st' sources between,
    Execute ord (c, σ) = Some ((), st')
    ∧ log st'.2 =
        log σ ++ sources ++ [EvCalculate m g e] ++ between
        ++ [EvUseOutput e s]
    ∧ EvMeasurement m ∈ sources
    ∧ EvGoal g ∈ sources
    ∧ EvGetSetpoint s ∈ sources ++ between.
Proof.
  intros Hg.
  destruct (Execute_alive ord c σ Hg)
    as (m & g & e & s & k & w & HE & _).
  exists m, g, e, s. eexists.
  destruct ord as [[] o].
  - exists (match o with
            | LeftFirst => [EvMeasurement m; EvGoal g]
            | RightFirst => [EvGoal g; EvMeasurement m]
            end), [EvGetSetpoint s].
    split; [exact HE|]. destruct o; split_and!; (done || set_solver).
  - exists (EvGetSetpoint s ::
            match o with
            | LeftFirst => [EvMeasurement m; EvGoal g]
            | RightFirst => [EvGoal g; EvMeasurement m]
            end), [].
    split; [exact HE|]. destruct o; split_and!; (done || set_solver).
Qed.

(** X5.  In every run of lifecycle calls, under every evaluation order, each
    of the measurement source, the goal source, [Calculate] and
    [GetSetpoint] is called once per [Execute] and never otherwise, and the
    output consumer is called once per [Execute] and once per [End]. *)
Theorem run_call_counts st ks st' :
  steps st ks st' →
  ∃ evs, log st'.2 = log st.2 ++ evs
    ∧ times is_measurement evs = how_many is_CallExecute ks
    ∧ times is_goal evs = how_many is_CallExecute ks
    ∧ times is_calculate evs = how_many is_CallExecute ks
    ∧ times is_getSetpoint evs = how_many is_CallExecute ks
    ∧ times is_useOutput evs
      = how_many is_CallExecute ks + how_many is_CallEnd ks.
Proof.
  induction 1 as [st|st k st1 ks st2 Hk Hks IH].
  - exists []. by rewrite app_nil_r.
  - destruct IH as (evs2 & Hl2 & Hm2 & Hg2 & Hc2 & Hs2 & Ho2).
    destruct (step_times _ _ _ Hk) as (evs1 & Hl1 & Hm1 & Hg1 & Hc1 & Hs1 & Ho1).
    exists (evs1 ++ evs2). split; [by rewrite Hl2, Hl1, app_assoc|].
    rewrite !times_app, !(how_many_cons _ k ks).
    rewrite Hm1, Hm2, Hg1, Hg2, Hc1, Hc2, Hs1, Hs2, Ho1, Ho2.
    split_and!; lia.
Qed.

(** X6.  No lifecycle call rebinds a collaborator: after every run the
    command holds the same measurement source, goal source and output
    consumer, reports the same requirements, and the frames are as they
    were. *)
Theorem lifecycle_keeps_collaborators st ks st' :
  steps st ks st' →
  m_measurement st'.1 = m_measurement st.1
  ∧ m_goal st'.1 = m_goal st.1
  ∧ m_useOutput st'.1 = m_useOutput st.1
  ∧ m_requirements st'.1 = m_requirements st.1
  ∧ frames st'.2 = frames st.2.
Proof.
  induction 1 as [st|st k st1 ks st2 Hk Hks (Hm & Hg & Ho & Hr & Hf)]; [done|].
  destruct (step_preserves _ _ _ Hk) as (Hg1 & Hf1 & Hm1 & Ho1 & Hr1).
  by rewrite Hm, Hg, Ho, Hr, Hf.
Qed.

(** X7.  Whatever ran before, a run that finishes with [End] leaves a zero
    command as the last thing the output consumer received: the last event
    is that call, made on the world the run had reached, and the controller
    is as the calls before [End] left it. *)
Theorem End_has_the_last_word st ks interrupted st' :
  steps st (ks ++ [CallEnd interrupted]) st' →
  ∃ st1,
    steps st ks st1
    ∧ last (log st'.2) = Some (EvUseOutput double_zero zero_State)
    ∧ world st'.2 = m_useOutput st1.1 double_zero zero_State (world st1.2)
    ∧ m_controller st'.1 = m_controller st1.1.
Proof.
  intros (st1 & Hks & Hend)%steps_app_inv. exists st1. split; [done|].
  inversion Hend as [|? ? st2 ? ? Hk Hnil]; subst.
  inversion Hnil; subst.
  inversion Hk as [| |? [c σ] ? HE]; subst.
  rewrite End_eq in HE. simplify_eq.
  cbn [fst snd log world emit set_world]. by rewrite last_snoc.
Qed.


Lemma run_dangling ord ks st :
  ¬ goal_alive st → is_Some (run ord ks st) ↔ CallExecute ∉ ks.
Proof.
  revert st. induction ks as [|k ks IH]; intros [c σ] Hg; cbn [run].
  - split; [intros _; apply not_elem_of_nil|eauto].
  - rewrite not_elem_of_cons. destruct k as [| |b]; cbn [call].
    + rewrite Initialize_eq.
      etrans; [apply IH; unfold goal_alive in *; by cbn in *|].
      split; [done|by intros [_ ?]].
    + rewrite (Execute_dangling ord c σ Hg).
      split; [by intros [? ?]|by intros [? _]].
    + rewrite End_eq.
      etrans; [apply IH; unfold goal_alive in *; by cbn in *|].
      split; [done|by intros [_ ?]].
Qed.

(** X10.  A command built by the position-valued goal source constructor or
    by the constant position constructor can still be initialised and ended;
    a sequence of lifecycle calls runs to its end exactly when it holds no
    [Execute]. *)
Theorem position_forms_run_iff_no_Execute ord ks (controller : Controller)
    measurementSource goalSource (goal : Distance_t double) useOutput
    (requirements : list Subsystem) σ :
  (is_Some (run ord ks (ProfiledPIDCommand_DistanceSource controller
                          measurementSource goalSource useOutput
                          requirements σ))
   ↔ CallExecute ∉ ks)
  ∧ (is_Some (run ord ks (ProfiledPIDCommand_DistanceGoal controller
                            measurementSource goal useOutput requirements σ))
     ↔ CallExecute ∉ ks).
Proof.
  split; apply run_dangling; apply DistanceSource_dangling.
Qed.

(** X11.  When both sources only read the world, one [Execute] is this, in
    every evaluation order: both sources are sampled on the world as it is,
    [Calculate] runs once on the two samples, and the output consumer acts
    on that same world.  The effort and the controller do not depend on the
    order; the setpoint depends on the order of the arguments of
    [m_useOutput] alone. *)
Theorem Execute_reads_only_sources ord c σ (f : World → State double * World) :
  m_goal c = Owning f →
  reads_only f →
  reads_only (m_measurement c) →
  ∃ e k s,
    Calculate (m_measurement c (world σ)).1 (f (world σ)).1 (m_controller c)
      = (e, k)
    ∧ s = GetSetpoint (match of_useOutput ord with
                       | LeftFirst => k
                       | RightFirst => m_controller c
                       end)
    ∧ Execute ord (c, σ) =
        Some ((), (set_controller k c,
                   mkEnv (m_useOutput c e s (world σ))
                     (log σ ++ tick_events ord (m_measurement c (world σ)).1
                                (f (world σ)).1 e s)
                     (frames σ))).
Proof.
  intros Hgoal Hf Hm.
  destruct (Calculate (m_measurement c (world σ)).1 (f (world σ)).1
              (m_controller c)) as [e k] eqn:Hc.
  exists e, k. eexists. split; [done|]. split; [done|].
  pose proof (Hm (world σ)) as Hm0. pose proof (Hf (world σ)) as Hf0.
  destruct (m_measurement c (world σ)) as [m w1] eqn:Em.
  destruct (f (world σ)) as [g w2] eqn:Ef.
  cbn [fst snd] in *. subst w1 w2.
  destruct σ as [w0 l0 fr0]; cbn [world log frames] in *.
  destruct ord as [[] []];
    unfold Execute, args2, mbind, mret, M_bind, M_ret, call_measurement,
      call_goal, controller_Calculate, controller_GetSetpoint, call_useOutput,
      emit, set_world, tick_events, invoke;
    cbn [world log frames m_measurement m_goal m_controller m_useOutput
         set_controller of_useOutput of_Calculate];
    repeat (rewrite ?Hgoal, ?Em, ?Ef, ?Hc;
            cbn [world log frames m_controller m_useOutput set_controller]);
    by rewrite <- !app_assoc.
Qed.

(** X12.  What [GetController] gives after a lifecycle call: the reset
    controller after [Initialize], the controller advanced by exactly one
    [Calculate] after [Execute] (in every evaluation order: [GetSetpoint]
    does not change it), and the same controller after [End]. *)
Theorem GetController_after_call st k st' :
  step st k st' →
  match k with
  | CallInitialize => GetController st'.1 = Reset (GetController st.1)
  | CallExecute =>
      ∃ m g, GetController st'.1 = (Calculate m g (GetController st.1)).2
  | CallEnd _ => GetController st'.1 = GetController st.1
  end.
Proof.
  destruct 1 as [[c σ] st' HI|ord [c σ] st' HE|b [c σ] st' HE].
  - rewrite Initialize_eq in HI. by simplify_eq.
  - destruct (Execute_alive ord c σ (Execute_Some_alive _ _ _ _ HE))
      as (m & g & e & s & k & w & HE' & _ & _ & Hc & _).
    rewrite HE' in HE. simplify_eq. exists m, g.
    unfold GetController; cbn [fst m_controller set_controller].
    by rewrite Hc.
  - rewrite End_eq in HE. by simplify_eq.
Qed.

End Properties.

(** * The claims on the test doubles *)

Import Stub.

(** C1 (tick atomicity), at an execution that breaks it.  The compiler may
    evaluate the second argument of [m_useOutput(..., ...)] first.  Then
    [GetSetpoint] runs before [Calculate]: the consumer is called once and
    with the effort [Calculate] returned (8), but with the setpoint of the
    previous profile step (position 3) and not the one [GetSetpoint] gives
    after this [Calculate] (position 4). *)
Theorem Execute_setpoint_first_is_stale :
  ∃ st',
    Execute setpoint_first canonical = Some ((), st')
    ∧ log st'.2 =
        [EvGetSetpoint (mkState 3 0); EvMeasurement 2; EvGoal (mkState 10 0);
         EvCalculate 2 (mkState 10 0) 8; EvUseOutput 8 (mkState 3 0)]%Z
    ∧ received (world st'.2) = [(8, mkState 3 0)]%Z
    ∧ GetSetpoint (m_controller st'.1) = mkState 4%Z 0%Z.
Proof. eexists. by split_and!. Qed.

(** C2 (tick order), at an execution that breaks it.  With the arguments of
    both calls evaluated from the right, the five steps happen as
    [GetSetpoint], goal, measurement, [Calculate], consumer: the setpoint is
    read before [Calculate] and the goal before the measurement.  This is not
    the order the specification lists. *)
Theorem Execute_right_to_left_order :
  ∃ st',
    Execute right_to_left canonical = Some ((), st')
    ∧ log st'.2 =
        [EvGetSetpoint (mkState 3 0); EvGoal (mkState 10 0); EvMeasurement 2;
         EvCalculate 2 (mkState 10 0) 8; EvUseOutput 8 (mkState 3 0)]%Z
    ∧ log st'.2 ≠ specified_tick 2%Z (mkState 10 0)%Z 8%Z (mkState 3 0)%Z
    ∧ log st'.2 ≠ specified_tick 2%Z (mkState 10 0)%Z 8%Z (mkState 4 0)%Z.
Proof. eexists. by split_and!. Qed.

(** Witness of C3: the canonical stub command under the right-to-left
    order. *)
Lemma Execute_input_freshness_witness :
  ∃ m g e st' evs,
    Execute right_to_left (canonical.1, canonical.2) = Some ((), st')
    ∧ log st'.2 = log canonical.2 ++ evs
    ∧ calls is_measurement evs = [EvMeasurement m]
    ∧ calls is_goal evs = [EvGoal g]
    ∧ calls is_calculate evs = [EvCalculate m g e]
    ∧ (∃ w0 w1, m_measurement canonical.1 w0 = (m, w1))
    ∧ (∃ w0 w1, invoke (m_goal canonical.1) (set_world w0 canonical.2)
                = Some (g, w1)).
Proof.
  apply (Execute_input_freshness right_to_left canonical.1 canonical.2).
  exact I.
Defined.

(** Witness of C5: after [Initialize], two ticks and [End(true)]. *)
Lemma Initialize_only_resets_witness :
  ∃ st',
    run left_to_right [CallExecute; CallExecute; CallEnd true]
      (set_controller (Reset (m_controller canonical.1)) canonical.1,
       emit EvReset canonical.2) = Some st'
    ∧ ∃ later, log st'.2 = log canonical.2 ++ EvReset :: later.
Proof.
  eexists. split; [reflexivity|].
  apply (proj2 (Initialize_only_resets canonical.1 canonical.2)
           [CallExecute; CallExecute; CallEnd true]).
  apply (run_steps left_to_right). reflexivity.
Defined.

(** Witness of C10: [Initialize], [Execute], [Execute], [Initialize]. *)
Lemma Reset_exactly_on_Initialize_witness :
  ∃ st',
    run right_to_left
      [CallInitialize; CallExecute; CallExecute; CallInitialize] canonical
      = Some st'
    ∧ ∃ evs, log st'.2 = log canonical.2 ++ evs
        ∧ length (calls is_reset evs) =
          length (List.filter is_CallInitialize
                    [CallInitialize; CallExecute; CallExecute; CallInitialize]).
Proof.
  eexists. split; [reflexivity|].
  apply Reset_exactly_on_Initialize.
  apply (run_steps right_to_left). reflexivity.
Defined.

(** ** Witnesses of the further properties *)

(** Witness of X1. *)
Lemma Execute_output_once_witness :
  ∃ m g e s st' before,
    Execute right_to_left (canonical.1, canonical.2) = Some ((), st')
    ∧ log st'.2 = log canonical.2 ++ before ++ [EvUseOutput e s]
    ∧ calls is_useOutput before = []
    ∧ calls is_calculate before = [EvCalculate m g e].
Proof.
  apply (Execute_output_once right_to_left canonical.1 canonical.2).
  exact I.
Defined.

(** Witness of X2. *)
Lemma Execute_sources_precede_Calculate_witness :
  ∃ m g e s st' sources between,
    Execute setpoint_first (canonical.1, canonical.2) = Some ((), st')
    ∧ log st'.2 =
        log canonical.2 ++ sources ++ [EvCalculate m g e] ++ between
        ++ [EvUseOutput e s]
    ∧ EvMeasurement m ∈ sources
    ∧ EvGoal g ∈ sources
    ∧ EvGetSetpoint s ∈ sources ++ between.
Proof.
  apply (Execute_sources_precede_Calculate setpoint_first
           canonical.1 canonical.2).
  exact I.
Defined.

(** Witness of X3. *)
Lemma Execute_setpoint_argument_witness :
  ∃ m g e k st' before,
    Execute setpoint_first (canonical.1, canonical.2) = Some ((), st')
    ∧ Calculate m g (m_controller canonical.1) = (e, k)
    ∧ log st'.2 =
        log canonical.2 ++ before ++
        [EvUseOutput e (GetSetpoint (m_controller canonical.1))].
Proof.
  apply (Execute_setpoint_argument setpoint_first canonical.1 canonical.2).
  exact I.
Defined.

(** Witness of X4. *)
Lemma Execute_left_to_right_witness :
  ∃ m g e k w,
    Execute (mkOrder LeftFirst LeftFirst) (canonical.1, canonical.2) =
      Some ((), (set_controller k canonical.1,
                 mkEnv w (log canonical.2
                          ++ specified_tick m g e (GetSetpoint k))
                   (frames canonical.2)))
    ∧ Calculate m g (m_controller canonical.1) = (e, k).
Proof.
  apply (Execute_left_to_right canonical.1 canonical.2).
  exact I.
Defined.

(** Witness of X5: [Initialize], two ticks, [End(false)]. *)
Lemma run_call_counts_witness :
  ∃ st',
    run right_to_left
      [CallInitialize; CallExecute; CallExecute; CallEnd false] canonical
      = Some st'
    ∧ ∃ evs, log st'.2 = log canonical.2 ++ evs
        ∧ times is_measurement evs = 2
        ∧ times is_goal evs = 2
        ∧ times is_calculate evs = 2
        ∧ times is_getSetpoint evs = 2
        ∧ times is_useOutput evs = 2 + 1.
Proof.
  eexists. split; [reflexivity|].
  apply (run_call_counts canonical
           [CallInitialize; CallExecute; CallExecute; CallEnd false]).
  apply (run_steps right_to_left). reflexivity.
Defined.

(** Witness of X6. *)
Lemma lifecycle_keeps_collaborators_witness :
  ∃ st',
    run right_to_left [CallInitialize; CallExecute; CallEnd true] canonical
      = Some st'
    ∧ m_measurement st'.1 = m_measurement canonical.1
    ∧ m_goal st'.1 = m_goal canonical.1
    ∧ m_useOutput st'.1 = m_useOutput canonical.1
    ∧ m_requirements st'.1 = m_requirements canonical.1
    ∧ frames st'.2 = frames canonical.2.
Proof.
  eexists. split; [reflexivity|].
  apply (lifecycle_keeps_collaborators canonical
           [CallInitialize; CallExecute; CallEnd true]).
  apply (run_steps right_to_left). reflexivity.
Defined.

(** Witness of X7: [End(true)] after [Initialize] and two ticks. *)
Lemma End_has_the_last_word_witness :
  ∃ st',
    run left_to_right
      ([CallInitialize; CallExecute; CallExecute] ++ [CallEnd true]) canonical
      = Some st'
    ∧ ∃ st1,
        steps canonical [CallInitialize; CallExecute; CallExecute] st1
        ∧ last (log st'.2) = Some (EvUseOutput 0%Z (mkState 0%Z 0%Z))
        ∧ world st'.2 = m_useOutput st1.1 0%Z (mkState 0%Z 0%Z) (world st1.2)
        ∧ m_controller st'.1 = m_controller st1.1.
Proof.
  eexists. split; [reflexivity|].
  apply (End_has_the_last_word canonical
           [CallInitialize; CallExecute; CallExecute] true).
  apply (run_steps left_to_right). reflexivity.
Defined.

(** Witness of X9: three ticks with the constant goal [State{4, 1}]. *)
Lemma constant_State_goal_stable_witness :
  ∃ st',
    run right_to_left (ticks 3) constant_state = Some st'
    ∧ ∃ evs, log st'.2 = log env0 ++ evs
        ∧ goals_are (mkState 4%Z 1%Z) evs.
Proof.
  eexists. split; [reflexivity|].
  apply (constant_State_goal_stable (Subsystem := nat) (mkRamp 3) read_sensor
           (mkState 4%Z 1%Z) drive [1; 2; 1] env0 (ticks 3)).
  apply (run_steps right_to_left). reflexivity.
Defined.

(** Witness of X11: the stub's sources only read the plant. *)
Lemma Execute_reads_only_sources_witness :
  ∃ e k s,
    Calculate (m_measurement canonical.1 (world canonical.2)).1
      (read_goal (world canonical.2)).1 (m_controller canonical.1) = (e, k)
    ∧ s = GetSetpoint (m_controller canonical.1)
    ∧ Execute right_to_left (canonical.1, canonical.2) =
        Some ((), (set_controller k canonical.1,
                   mkEnv (m_useOutput canonical.1 e s (world canonical.2))
                     (log canonical.2
                      ++ tick_events right_to_left
                           (m_measurement canonical.1 (world canonical.2)).1
                           (read_goal (world canonical.2)).1 e s)
                     (frames canonical.2))).
Proof.
  apply (Execute_reads_only_sources right_to_left canonical.1 canonical.2
           read_goal).
  - reflexivity.
  - intros w. reflexivity.
  - intros w. reflexivity.
Defined.

(** Witness of X12: one tick advances the stub controller from 3 to 4. *)
Lemma GetController_after_call_witness :
  ∃ st',
    run right_to_left [CallExecute] canonical = Some st'
    ∧ ∃ m g,
        GetController st'.1 = (Calculate m g (GetController canonical.1)).2.
Proof.
  eexists. split; [reflexivity|].
  apply (GetController_after_call canonical CallExecute).
  apply (step_Execute right_to_left). reflexivity.
Defined.

(** ** The scenarios of the specification, left to right *)

(** One tick with a dynamic goal. *)
Example single_tick :
  (λ st, (received (world st.2), log st.2))
    <$> run left_to_right [CallExecute] canonical
  = Some ([(8, mkState 4 0)],
          specified_tick 2 (mkState 10 0) 8 (mkState 4 0))%Z.
Proof. reflexivity. Qed.

(** Three ticks with a constant [State] goal. *)
Example constant_state_three_ticks :
  (λ st, calls is_calculate (log st.2))
    <$> run left_to_right (ticks 3) constant_state
  = Some [EvCalculate 2 (mkState 4 1) 2; EvCalculate 2 (mkState 4 1) 2;
          EvCalculate 2 (mkState 4 1) 2]%Z.
Proof. reflexivity. Qed.

(** The controller's log of [Initialize], [Execute], [Execute],
    [Initialize]. *)
Example reset_semantics :
  (λ st, List.filter (λ e, is_reset e || is_calculate e || is_getSetpoint e)
           (log st.2))
    <$> run left_to_right
          [CallInitialize; CallExecute; CallExecute; CallInitialize] canonical
  = Some [EvReset; EvCalculate 2 (mkState 10 0) 8; EvGetSetpoint (mkState 1 0);
          EvCalculate 2 (mkState 10 0) 8; EvGetSetpoint (mkState 2 0);
          EvReset]%Z.
Proof. reflexivity. Qed.

(** [End(true)] after [Initialize] and two ticks. *)
Example clean_end :
  (λ st, last (log st.2))
    <$> run left_to_right
          [CallInitialize; CallExecute; CallExecute; CallEnd true] canonical
  = Some (Some (EvUseOutput 0 (mkState 0 0)))%Z.
Proof. reflexivity. Qed.

(** The position-valued forms: the first tick is already undefined. *)
Example from_position_first_tick :
  run left_to_right [CallExecute] from_position = None.
Proof. reflexivity. Qed.

Example constant_position_first_tick :
  run left_to_right [CallExecute] constant_position = None.
Proof. reflexivity. Qed.

(** Requirements [1; 2; 1] are reported as the two identifiers 1 and 2. *)
Example requirements_deduplicated :
  m_requirements canonical.1 = {[1; 2]}.
Proof. apply set_eq. intros x. set_solver. Qed.
